(** * BIP32 hierarchical deterministic key derivation (BRBIP32Sequence.c)

    A shallow embedding of [BRBIP32Sequence.c] and the properties of its
    derivation functions.

    - Byte buffers are [list byte]; a store through a pointer into a buffer
      is stdpp's [list_inserts], which keeps the size of the buffer.
    - [UInt256], [UInt512] and [BRPubKey] are byte arrays of 32, 64 and 33
      bytes.  The scalar held by a [UInt256] is its big-endian reading
      ([parse256]).
    - The curve arithmetic, the HMAC and the [BRKey] functions live in other
      files of the library; they are the operations of the class
      [Collaborators], and what is assumed of them is the class
      [CollaboratorsOk].
    - Every function returns, next to its results, the content of its local
      buffers at the moment it returns (its [frame]). *)

From Stdlib Require Import ZArith Lia.
From Stdlib Require Import Strings.Byte.
From stdpp Require Import base list strings.

Local Open Scope Z_scope.

(** ** Bytes and big-endian integers *)

Abbreviation byte := Byte.byte.

#[global] Instance byte_eq_decision : EqDecision byte := Byte.byte_eq_dec.

Definition byte_to_Z (b : byte) : Z := Z.of_N (Byte.to_N b).

Definition byte_of_Z (z : Z) : byte :=
  default x00 (Byte.of_N (Z.to_N (z mod 256))).

(** Big-endian reading of a byte string. *)
Definition be_decode (bs : list byte) : Z :=
  fold_left (fun acc b => acc * 256 + byte_to_Z b) bs 0.

(** Big-endian writing of the low [8 * len] bits of [z]. *)
Fixpoint be_encode (len : nat) (z : Z) : list byte :=
  match len with
  | O => []
  | S len' => be_encode len' (z / 256) ++ [byte_of_Z z]
  end.

(** BIP32's [parse256], [ser256] and [ser32]. *)
Definition parse256 (bs : list byte) : Z := be_decode bs.
Definition ser256 (z : Z) : list byte := be_encode 32 z.
Definition ser32 (z : Z) : list byte := be_encode 4 z.

(** ** Types of BRTypes.h and BRKey.h *)

Definition UInt160 := list byte.
Definition UInt256 := list byte.
Definition UInt512 := list byte.
Definition BRPubKey := list byte.

Definition sizeof_UInt256 : nat := 32.
Definition sizeof_UInt512 : nat := 64.
Definition sizeof_BRPubKey : nat := 33.
Definition sizeof_uint32 : nat := 4.

Definition is_UInt256 (x : list byte) : Prop := length x = sizeof_UInt256.
Definition is_BRPubKey (x : list byte) : Prop := length x = sizeof_BRPubKey.

Definition UINT256_ZERO : UInt256 := replicate sizeof_UInt256 x00.

(** [BRMasterPubKey]: [fingerPrint] is a [uint32_t]; it is kept as the four
    bytes it occupies in memory, which is what [.u32[0]] of a hash copies. *)
Record BRMasterPubKey := {
  fingerPrint : list byte;
  chainCode : UInt256;
  pubKey : BRPubKey
}.

(** Modelled from the spec: the macro [BR_MASTER_PUBKEY_NONE] of the header,
    the sentinel with all-zero fingerprint, chain code and public key. *)
Definition BR_MASTER_PUBKEY_NONE : BRMasterPubKey :=
  {| fingerPrint := replicate sizeof_uint32 x00;
     chainCode := UINT256_ZERO;
     pubKey := replicate sizeof_BRPubKey x00 |}.

#[global] Instance BRMasterPubKey_eq_decision : EqDecision BRMasterPubKey.
Proof. solve_decision. Defined.

(** ** Memory *)

(** [memset(b, v, n)] on a buffer whose content is [b]. *)
Definition memset (b : list byte) (v : byte) (n : nat) : list byte :=
  list_inserts 0 (replicate n v) b.

(** [*(T * )&b[off]] read as [size] bytes. *)
Definition load (b : list byte) (off size : nat) : list byte :=
  take size (drop off b).

(** The local buffers of a call with their content when the call returns. *)
Definition frame := list (string * list byte).

Definition zeroed (b : list byte) : Prop := Forall (fun x => x = x00) b.

Definition frame_zeroed (f : frame) : Prop := Forall (fun e => zeroed e.2) f.

#[global] Instance zeroed_dec b : Decision (zeroed b).
Proof. unfold zeroed. apply _. Defined.

#[global] Instance frame_zeroed_dec f : Decision (frame_zeroed f).
Proof. unfold frame_zeroed. apply _. Defined.

(** ** Constants of BRBIP32Sequence.c *)

Definition BIP32_HARD : Z := 0x80000000.
Definition BIP32_SEED_KEY : list byte := String.list_byte_of_string "Bitcoin seed".
Definition BIP32_XPRV : list byte := [x04; x88; xad; xe4].
Definition BIP32_XPUB : list byte := [x04; x88; xb2; x1e].

(** The order of the curve secp256k1. *)
Definition secp256k1_n : Z :=
  0xFFFFFFFFFFFFFFFFFFFFFFFFFFFFFFFEBAAEDCE6AF48A03BBFD25E8CD0364141.

(** Modelled from the spec: the macro [be32] of the header.  [be32 i] is the
    memory content of the [uint32_t] that the code stores behind the key
    material, the 4-byte big-endian writing of the index. *)
Definition be32 (i : Z) : list byte := ser32 i.

(** ** The functions of the other modules *)

Class Collaborators := {
  (** [secp256k1_point_mul(r, p, i, compressed)]: the bytes stored in [r];
      [p = NULL] ([None]) stands for the generator. *)
  secp256k1_point_mul : option BRPubKey -> UInt256 -> bool -> BRPubKey;
  (** [secp256k1_point_add(r, a, b, compressed)]: the bytes stored in [r]. *)
  secp256k1_point_add : BRPubKey -> BRPubKey -> bool -> BRPubKey;
  (** [secp256k1_mod_add(a, b)]. *)
  secp256k1_mod_add : UInt256 -> UInt256 -> UInt256;
  (** [BRHMAC(md, BRSHA512, 64, key, keyLen, data, dataLen)]: the bytes
      stored in [md]. *)
  BRHMAC_SHA512 : list byte -> list byte -> list byte;
  (** [BRKeySetSecret(&key, secret, compressed)]: the new content of [key]. *)
  BRKeySetSecret : list byte -> UInt256 -> bool -> list byte;
  (** [BRKeyHash160(&key)]: the hash and the new content of [key]. *)
  BRKeyHash160 : list byte -> UInt160 * list byte;
  (** [BRKeyPubKey(&key, pubKey, pkLen)]: [None] when the call returns 0,
      else the bytes stored in [pubKey]; and the new content of [key]. *)
  BRKeyPubKey : list byte -> nat -> option BRPubKey * list byte;
  sizeof_BRKey : nat;
  (** The indeterminate content of a local buffer of [n] bytes when it is
      declared. *)
  uninit : nat -> list byte
}.

(** What the callers in this file rely on. *)
Class CollaboratorsOk (E : Collaborators) : Prop := {
  point_mul_size : forall p i, is_BRPubKey (secp256k1_point_mul p i true);
  point_add_size : forall a b, is_BRPubKey (secp256k1_point_add a b true);
  mod_add_spec : forall a b, is_UInt256 a -> is_UInt256 b ->
    secp256k1_mod_add a b = ser256 ((parse256 a + parse256 b) mod secp256k1_n);
  hmac_size : forall key data, length (BRHMAC_SHA512 key data) = sizeof_UInt512;
  pubkey_size : forall key pk key', BRKeyPubKey key sizeof_BRPubKey = (Some pk, key') ->
    is_BRPubKey pk;
  uninit_size : forall n, length (uninit n) = n
}.

Section BIP32.

Context {E : Collaborators}.

(** ** CKDpriv *)

Definition hardened (i : Z) : bool := negb (Z.land i BIP32_HARD =? 0).

(** The content of [buf] when [BRHMAC] is called. *)
Definition CKDpriv_buf (k : UInt256) (i : Z) : list byte :=
  let buf := uninit (sizeof_BRPubKey + sizeof_uint32) in
  let buf :=
    if hardened i
    then list_inserts 1 (take sizeof_UInt256 k) (<[0%nat := x00]> buf)
    else list_inserts 0 (secp256k1_point_mul None k true) buf in
  list_inserts sizeof_BRPubKey (be32 i) buf.

Definition CKDpriv (k c : UInt256) (i : Z) : (UInt256 * UInt256) * frame :=
  let buf := CKDpriv_buf k i in
  let I := list_inserts 0 (BRHMAC_SHA512 c buf) (uninit sizeof_UInt512) in
  let k' := secp256k1_mod_add (load I 0 sizeof_UInt256) k in
  let c' := load I sizeof_UInt256 sizeof_UInt256 in
  let buf := memset buf x00 (sizeof_BRPubKey + sizeof_uint32) in
  let I := memset I x00 sizeof_UInt512 in
  ((k', c'), [("buf"%string, buf); ("I"%string, I)]).

(** ** CKDpub *)

Definition CKDpub (K : BRPubKey) (c : UInt256) (i : Z) : (BRPubKey * UInt256) * frame :=
  if hardened i then ((K, c), [])
  else
    let buf := uninit (sizeof_BRPubKey + sizeof_uint32) in
    let buf := list_inserts 0 (take sizeof_BRPubKey K) buf in
    let buf := list_inserts sizeof_BRPubKey (be32 i) buf in
    let I := list_inserts 0 (BRHMAC_SHA512 c buf) (uninit sizeof_UInt512) in
    let c' := load I sizeof_UInt256 sizeof_UInt256 in
    let pIL :=
      list_inserts 0 (secp256k1_point_mul None (load I 0 sizeof_UInt256) true)
        (uninit sizeof_BRPubKey) in
    let K' := list_inserts 0 (secp256k1_point_add pIL K true) K in
    let buf := memset buf x00 (sizeof_BRPubKey + sizeof_uint32) in
    let I := memset I x00 sizeof_UInt512 in
    let pIL := memset pIL x00 sizeof_BRPubKey in
    ((K', c'), [("buf"%string, buf); ("I"%string, I); ("pIL"%string, pIL)]).

(** ** BRBIP32MasterPubKey

    [seed] is [None] for a null pointer.  The local [mpk] is the value that
    is returned; the other locals make up the frame. *)

Definition BRBIP32MasterPubKey (seed : option (list byte)) (seedLen : nat)
    : BRMasterPubKey * frame :=
  match seed with
  | None => (BR_MASTER_PUBKEY_NONE, [])
  | Some seed =>
    let I :=
      list_inserts 0 (BRHMAC_SHA512 BIP32_SEED_KEY (take seedLen seed))
        (uninit sizeof_UInt512) in
    let secret := load I 0 sizeof_UInt256 in
    let chain := load I sizeof_UInt256 sizeof_UInt256 in
    let key := uninit sizeof_BRKey in
    let key := BRKeySetSecret key secret true in
    let '(h, key) := BRKeyHash160 key in
    let mpk_fingerPrint := load h 0 sizeof_uint32 in
    let '(secret, chain) := (CKDpriv secret chain (Z.lor 0 BIP32_HARD)).1 in
    let mpk_chainCode := chain in
    let key := BRKeySetSecret key secret true in
    let '(r, key) := BRKeyPubKey key sizeof_BRPubKey in
    let fr := [("I"%string, I); ("secret"%string, secret);
               ("chain"%string, chain); ("key"%string, key)] in
    match r with
    | None => (BR_MASTER_PUBKEY_NONE, fr)
    | Some pk =>
      ({| fingerPrint := mpk_fingerPrint;
          chainCode := mpk_chainCode;
          pubKey := list_inserts 0 pk (uninit sizeof_BRPubKey) |}, fr)
    end
  end.

(** ** The path derivation and serialization functions

    Their bodies are empty in this file.  [BRBIP32PubKey] returns its local
    [pubKey] as declared; the [void] functions get the content of the
    caller's output and return it as it is after the call; the serializers
    return the [size_t] result and the content of [s]. *)

Definition BRBIP32PubKey (mpk : BRMasterPubKey) (internal : Z) (index : Z) : BRPubKey :=
  let pubKey := uninit sizeof_BRPubKey in
  pubKey.

Definition BRBIP32PrivKey (key : UInt256) (seed : option (list byte)) (seedlen : nat)
    (internal : Z) (index : Z) : UInt256 :=
  key.

Definition BRBIP32PrivKeyList (keys : list UInt256) (count : nat)
    (seed : option (list byte)) (seedlen : nat) (internal : Z) (indexes : list Z)
    : list UInt256 :=
  keys.

Definition BRBIP32SerializeMasterPrivKey (s : option (list byte)) (len : nat)
    (seed : option (list byte)) (slen : nat) : Z * option (list byte) :=
  (0, s).

Definition BRBIP32SerializeMasterPubKey (s : option (list byte)) (len : nat)
    (mpk : BRMasterPubKey) : Z * option (list byte) :=
  (0, s).

End BIP32.

(** ** The derivation paths in the words of the specification

    Section 4.4: seed, then the seed-HMAC step, then the hardened account-0
    child, then the [chainType] child, then the [index] child; on the public
    side two [CKDpub] steps from the master public key. *)

Definition spec_DerivePrivateKey `{Collaborators} (seed : list byte)
    (chainType index : Z) : UInt256 :=
  let I := BRHMAC_SHA512 BIP32_SEED_KEY seed in
  let '(k, c) := (load I 0 sizeof_UInt256, load I sizeof_UInt256 sizeof_UInt256) in
  let '(k, c) := (CKDpriv k c (Z.lor 0 BIP32_HARD)).1 in
  let '(k, c) := (CKDpriv k c chainType).1 in
  let '(k, c) := (CKDpriv k c index).1 in
  k.

Definition spec_DerivePublicKey `{Collaborators} (mpk : BRMasterPubKey)
    (chainType index : Z) : BRPubKey :=
  let '(K, c) := (CKDpub (pubKey mpk) (chainCode mpk) chainType).1 in
  let '(K, c) := (CKDpub K c index).1 in
  K.

(** ** An instance of the collaborators

    The curve group is cyclic of order [secp256k1_n]; here a point is
    written by its discrete logarithm, [0x02] followed by [ser256 d], so
    that the generator is [1], addition of points is addition modulo the
    order and the point at infinity is [0].  The keyed hash is any function
    [prf] to 512-bit numbers. *)

Module Reference.

Definition point_enc (d : Z) : BRPubKey := x02 :: ser256 (d mod secp256k1_n).

Definition point_dlog (P : BRPubKey) : Z := parse256 (drop 1 P).

Definition point_mul (p : option BRPubKey) (i : UInt256) (compressed : bool) : BRPubKey :=
  point_enc (match p with None => 1 | Some P => point_dlog P end * parse256 i).

Definition point_add (a b : BRPubKey) (compressed : bool) : BRPubKey :=
  point_enc (point_dlog a + point_dlog b).

Definition mod_add (a b : UInt256) : UInt256 :=
  ser256 ((parse256 a + parse256 b) mod secp256k1_n).

Definition hmac (prf : list byte -> list byte -> Z) (key data : list byte) : list byte :=
  be_encode sizeof_UInt512 (prf key data).

(** A key is its secret followed by the compression flag. *)
Definition key_set_secret (key : list byte) (secret : UInt256) (compressed : bool)
    : list byte :=
  take sizeof_UInt256 secret ++ [if compressed then x01 else x00].

Definition key_pubkey (key : list byte) (pkLen : nat) : option BRPubKey * list byte :=
  let d := parse256 (take sizeof_UInt256 key) in
  if (0 <? d) && (d <? secp256k1_n) && (sizeof_BRPubKey <=? pkLen)%nat
  then (Some (point_mul None (take sizeof_UInt256 key) true), key)
  else (None, key).

Definition key_hash160 (prf : list byte -> list byte -> Z) (key : list byte)
    : UInt160 * list byte :=
  (take 20 (hmac prf [] (point_mul None (take sizeof_UInt256 key) true)), key).

Definition collab (prf : list byte -> list byte -> Z) : Collaborators :=
  {| secp256k1_point_mul := point_mul;
     secp256k1_point_add := point_add;
     secp256k1_mod_add := mod_add;
     BRHMAC_SHA512 := hmac prf;
     BRKeySetSecret := key_set_secret;
     BRKeyHash160 := key_hash160 prf;
     BRKeyPubKey := key_pubkey;
     sizeof_BRKey := 33;
     uninit := fun n => replicate n xcc |}.

(** A keyed mixing function, standing for HMAC-SHA512. *)
Definition mix (key data : list byte) : Z :=
  let absorb := fold_left (fun s b => (s * 6364136223846793005 + byte_to_Z b + 1) mod 2 ^ 512) in
  let s := absorb data (absorb key 0x6a09e667f3bcc908) in
  let s := absorb key (s * s + 0xbb67ae8584caa73b) in
  (s * s * s + s) mod 2 ^ 512.

(** Keyed hashes with a fixed output: all bits set, so that [IL] is not
    below the order, and [IL = n - 1], [IR = 0]. *)
Definition saturated (key data : list byte) : Z := 2 ^ 512 - 1.
Definition opposite (key data : list byte) : Z := (secp256k1_n - 1) * 2 ^ 256.

End Reference.

(** Inputs of the examples: the reference collaborators with [mix], the
    seed of 16 zero bytes, two scalars and the generator. *)

Module Inputs.

Definition ref : Collaborators := Reference.collab Reference.mix.
Definition seed16 : list byte := replicate 16 x00.
Definition one : UInt256 := ser256 1.
Definition five : UInt256 := ser256 5.
Definition G : BRPubKey := Reference.point_enc 1.

End Inputs.

(** Collaborators that differ from given ones in one operation, and a keyed
    hash whose output is all zero. *)

Module Variants.

Definition with_uninit (E : Collaborators) (u : nat -> list byte) : Collaborators :=
  {| secp256k1_point_mul := secp256k1_point_mul;
     secp256k1_point_add := secp256k1_point_add;
     secp256k1_mod_add := secp256k1_mod_add;
     BRHMAC_SHA512 := BRHMAC_SHA512;
     BRKeySetSecret := BRKeySetSecret;
     BRKeyHash160 := BRKeyHash160;
     BRKeyPubKey := BRKeyPubKey;
     sizeof_BRKey := sizeof_BRKey;
     uninit := u |}.

Definition with_point_mul (E : Collaborators)
    (pm : option BRPubKey -> UInt256 -> bool -> BRPubKey) : Collaborators :=
  {| secp256k1_point_mul := pm;
     secp256k1_point_add := secp256k1_point_add;
     secp256k1_mod_add := secp256k1_mod_add;
     BRHMAC_SHA512 := BRHMAC_SHA512;
     BRKeySetSecret := BRKeySetSecret;
     BRKeyHash160 := BRKeyHash160;
     BRKeyPubKey := BRKeyPubKey;
     sizeof_BRKey := sizeof_BRKey;
     uninit := uninit |}.

Definition silent (key data : list byte) : Z := 0.

End Variants.

(** * Properties *)

(** ** Bytes and big-endian integers *)

Lemma byte_to_Z_range (b : byte) : 0 <= byte_to_Z b < 256.
Proof.
  unfold byte_to_Z. pose proof (Byte.to_N_bounded b). lia.
Qed.

Lemma byte_of_to_Z (b : byte) : byte_of_Z (byte_to_Z b) = b.
Proof.
  unfold byte_of_Z. pose proof (byte_to_Z_range b) as Hb.
  rewrite Z.mod_small by lia. unfold byte_to_Z.
  rewrite N2Z.id, Byte.of_to_N. reflexivity.
Qed.

Lemma byte_to_of_Z (z : Z) : byte_to_Z (byte_of_Z z) = z mod 256.
Proof.
  unfold byte_of_Z, byte_to_Z.
  pose proof (Z.mod_pos_bound z 256 ltac:(lia)) as Hz.
  destruct (Byte.of_N (Z.to_N (z mod 256))) as [b|] eqn:Hb; simpl.
  - apply Byte.to_of_N in Hb. rewrite Hb. lia.
  - apply Byte.of_N_None_iff in Hb. lia.
Qed.

Lemma length_be_encode (len : nat) (z : Z) : length (be_encode len z) = len.
Proof.
  revert z. induction len as [|len IH]; intros z; simpl; [reflexivity|].
  rewrite length_app, IH. simpl. lia.
Qed.

Lemma be_decode_acc (bs : list byte) (acc : Z) :
  fold_left (fun acc b => acc * 256 + byte_to_Z b) bs acc
  = acc * 256 ^ Z.of_nat (length bs) + be_decode bs.
Proof.
  unfold be_decode. revert acc.
  induction bs as [|b bs IH]; intros acc; simpl fold_left.
  - simpl. lia.
  - rewrite IH, (IH (0 * 256 + byte_to_Z b)).
    rewrite length_cons, Nat2Z.inj_succ, Z.pow_succ_r by lia. lia.
Qed.

Lemma be_decode_app (a b : list byte) :
  be_decode (a ++ b) = be_decode a * 256 ^ Z.of_nat (length b) + be_decode b.
Proof.
  unfold be_decode at 1. rewrite fold_left_app, be_decode_acc. reflexivity.
Qed.

Lemma be_decode_snoc (a : list byte) (b : byte) :
  be_decode (a ++ [b]) = be_decode a * 256 + byte_to_Z b.
Proof.
  rewrite be_decode_app. simpl length. unfold be_decode at 2. simpl. lia.
Qed.

Lemma be_decode_range (bs : list byte) :
  0 <= be_decode bs < 256 ^ Z.of_nat (length bs).
Proof.
  induction bs as [|b bs IH] using rev_ind.
  - simpl. unfold be_decode. simpl. lia.
  - rewrite be_decode_snoc, length_app. simpl length.
    replace (Z.of_nat (length bs + 1)) with (Z.succ (Z.of_nat (length bs))) by lia.
    rewrite Z.pow_succ_r by lia.
    pose proof (byte_to_Z_range b). lia.
Qed.

(** Reading back what was written gives the low bits of the number. *)
Lemma be_decode_encode (len : nat) (z : Z) :
  be_decode (be_encode len z) = z mod 256 ^ Z.of_nat len.
Proof.
  revert z. induction len as [|len IH]; intros z.
  - simpl. unfold be_decode. simpl. rewrite Z.mod_1_r. reflexivity.
  - simpl be_encode. rewrite be_decode_snoc, IH, byte_to_of_Z.
    rewrite Nat2Z.inj_succ, Z.pow_succ_r by lia.
    assert (0 < 256 ^ Z.of_nat len) by (apply Z.pow_pos_nonneg; lia).
    rewrite Z.rem_mul_r by lia. ring.
Qed.

(** Writing what was read gives the bytes back. *)
Lemma be_encode_decode (bs : list byte) :
  be_encode (length bs) (be_decode bs) = bs.
Proof.
  induction bs as [|b bs IH] using rev_ind; [reflexivity|].
  rewrite length_app. simpl length.
  replace (length bs + 1)%nat with (S (length bs)) by lia.
  simpl be_encode. rewrite be_decode_snoc.
  pose proof (byte_to_Z_range b) as Hb.
  rewrite Z.div_add_l, Z.div_small, Z.add_0_r, IH by lia.
  f_equal. f_equal.
  transitivity (byte_of_Z (byte_to_Z b)); [|apply byte_of_to_Z].
  unfold byte_of_Z. rewrite (Z.add_comm _ (byte_to_Z b)), Z.mod_add by lia.
  reflexivity.
Qed.

Lemma ser256_parse256 (k : UInt256) : is_UInt256 k -> ser256 (parse256 k) = k.
Proof.
  unfold is_UInt256, sizeof_UInt256, ser256, parse256. intros Hk.
  rewrite <- Hk. apply be_encode_decode.
Qed.

Lemma parse256_ser256 (z : Z) : 0 <= z < 2 ^ 256 -> parse256 (ser256 z) = z.
Proof.
  intros Hz. unfold ser256, parse256. rewrite be_decode_encode.
  apply Z.mod_small. change (256 ^ Z.of_nat 32) with (2 ^ 256). lia.
Qed.

Lemma ser256_is_UInt256 (z : Z) : is_UInt256 (ser256 z).
Proof. apply length_be_encode. Qed.

(** [i & BIP32_HARD] tests bit 31 of the index. *)
Lemma hardened_testbit (i : Z) : hardened i = Z.testbit i 31.
Proof.
  unfold hardened, BIP32_HARD. change 0x80000000 with (2 ^ 31).
  destruct (Z.testbit i 31) eqn:Hb.
  - destruct (Z.eqb_spec (Z.land i (2 ^ 31)) 0) as [H0|]; [|reflexivity].
    apply (f_equal (fun z => Z.testbit z 31)) in H0.
    rewrite Z.land_spec, Hb, Z.pow2_bits_true, Z.bits_0 in H0 by lia.
    discriminate.
  - destruct (Z.eqb_spec (Z.land i (2 ^ 31)) 0) as [|H0]; [reflexivity|].
    exfalso. apply H0. apply Z.bits_inj'. intros n Hn.
    rewrite Z.land_spec, Z.bits_0.
    destruct (Z.eq_dec n 31) as [->|Hne].
    + rewrite Hb. reflexivity.
    + rewrite Z.pow2_bits_false by lia. apply andb_false_r.
Qed.

(** ** Stores into a buffer *)

(** Two stores that cover a buffer leave nothing of its former content. *)
Lemma store_two (a b l : list byte) :
  length l = (length a + length b)%nat ->
  list_inserts (length a) b (list_inserts 0 a l) = a ++ b.
Proof.
  intros Hl.
  rewrite <- (take_drop (length a) l).
  rewrite list_inserts_0_r by (rewrite length_take; lia).
  replace (length a) with (length a + 0)%nat at 1 by lia.
  rewrite list_inserts_app_r. f_equal.
  rewrite <- (app_nil_r (drop _ l)).
  rewrite list_inserts_0_r by (rewrite length_drop; lia).
  apply app_nil_r.
Qed.

Lemma store_all (a l : list byte) :
  length l = length a -> list_inserts 0 a l = a.
Proof.
  intros Hl. rewrite <- (app_nil_r l).
  rewrite list_inserts_0_r by lia. apply app_nil_r.
Qed.

Lemma memset_zeroed (b : list byte) (n : nat) :
  length b = n -> zeroed (memset b x00 n).
Proof.
  intros Hb. unfold memset.
  rewrite store_all by (rewrite length_replicate; exact Hb).
  unfold zeroed. apply Forall_replicate. reflexivity.
Qed.

Lemma load_whole (b : list byte) (n : nat) : length b = n -> load b 0 n = b.
Proof. intros Hb. unfold load. rewrite drop_0. apply take_ge. lia. Qed.

Lemma load_half (b : list byte) (n : nat) :
  length b = (n + n)%nat -> load b n n = drop n b.
Proof.
  intros Hb. unfold load. apply take_ge. rewrite length_drop. lia.
Qed.

(** ** The reference collaborators meet the assumptions *)

#[global] Instance reference_ok (prf : list byte -> list byte -> Z) :
  CollaboratorsOk (Reference.collab prf).
Proof.
  assert (Henc : forall d, is_BRPubKey (Reference.point_enc d)).
  { intros d. unfold is_BRPubKey, Reference.point_enc, ser256.
    rewrite length_cons, length_be_encode. reflexivity. }
  split.
  - intros p i. apply Henc.
  - intros a b. apply Henc.
  - reflexivity.
  - intros key data. apply length_be_encode.
  - intros key pk key'. cbn [BRKeyPubKey Reference.collab].
    unfold Reference.key_pubkey.
    destruct (_ && _); intros [= <- _]. apply Henc.
  - intros n. apply length_replicate.
Qed.

(** ** CKDpriv and CKDpub *)

Section Derivation.

Context {E : Collaborators} {EOk : CollaboratorsOk E}.

Lemma hmac_stored (key data : list byte) :
  list_inserts 0 (BRHMAC_SHA512 key data) (uninit sizeof_UInt512)
  = BRHMAC_SHA512 key data.
Proof. apply store_all. rewrite uninit_size, hmac_size. reflexivity. Qed.

Lemma CKDpriv_buf_hardened (k : UInt256) (i : Z) :
  is_UInt256 k -> hardened i = true -> CKDpriv_buf k i = x00 :: k ++ ser32 i.
Proof.
  unfold is_UInt256. intros Hk Hi. unfold CKDpriv_buf. rewrite Hi.
  rewrite take_ge by (rewrite Hk; lia).
  rewrite <- list_insert_inserts_lt by lia.
  change (<[0%nat:=x00]> (list_inserts 1 k ?l)) with (list_inserts 0 (x00 :: k) l).
  replace sizeof_BRPubKey with (length (x00 :: k)) at 1
    by (rewrite length_cons, Hk; reflexivity).
  rewrite store_two; [reflexivity|].
  rewrite uninit_size, length_cons, Hk. unfold be32, ser32.
  rewrite length_be_encode. reflexivity.
Qed.

Lemma CKDpriv_buf_normal (k : UInt256) (i : Z) :
  hardened i = false ->
  CKDpriv_buf k i = secp256k1_point_mul None k true ++ ser32 i.
Proof.
  intros Hi. unfold CKDpriv_buf. rewrite Hi.
  pose proof (point_mul_size None k) as HP. unfold is_BRPubKey in HP.
  rewrite <- HP at 1.
  rewrite store_two; [reflexivity|].
  rewrite uninit_size, HP. unfold be32, ser32.
  rewrite length_be_encode. reflexivity.
Qed.

Lemma CKDpriv_result (k c : UInt256) (i : Z) :
  let I := BRHMAC_SHA512 c (CKDpriv_buf k i) in
  (CKDpriv k c i).1 = (secp256k1_mod_add (take 32 I) k, drop 32 I).
Proof.
  intros I. unfold CKDpriv. cbn [fst].
  rewrite hmac_stored. fold I.
  rewrite load_half by apply hmac_size.
  unfold load. rewrite drop_0. reflexivity.
Qed.

Lemma CKDpriv_frame_zeroed (k c : UInt256) (i : Z) :
  frame_zeroed (CKDpriv k c i).2.
Proof.
  unfold CKDpriv, frame_zeroed. cbn [snd].
  rewrite !Forall_cons. cbn [snd]. split_and!; [| |constructor].
  - apply memset_zeroed. unfold CKDpriv_buf.
    rewrite !length_inserts. destruct (hardened i).
    + rewrite length_inserts, length_insert. apply uninit_size.
    + rewrite length_inserts. apply uninit_size.
  - apply memset_zeroed. rewrite length_inserts. apply uninit_size.
Qed.

Lemma CKDpub_hardened (K : BRPubKey) (c : UInt256) (i : Z) :
  hardened i = true -> CKDpub K c i = ((K, c), []).
Proof. intros Hi. unfold CKDpub. rewrite Hi. reflexivity. Qed.

Lemma CKDpub_buf (K : BRPubKey) (i : Z) :
  is_BRPubKey K ->
  list_inserts sizeof_BRPubKey (be32 i)
    (list_inserts 0 (take sizeof_BRPubKey K)
       (uninit (sizeof_BRPubKey + sizeof_uint32)))
  = K ++ ser32 i.
Proof.
  unfold is_BRPubKey. intros HK. rewrite take_ge by (rewrite HK; lia).
  rewrite <- HK at 1. rewrite store_two; [reflexivity|].
  rewrite uninit_size, HK. unfold be32, ser32.
  rewrite length_be_encode. reflexivity.
Qed.

Lemma CKDpub_result (K : BRPubKey) (c : UInt256) (i : Z) :
  is_BRPubKey K -> hardened i = false ->
  let I := BRHMAC_SHA512 c (K ++ ser32 i) in
  (CKDpub K c i).1
  = (secp256k1_point_add (secp256k1_point_mul None (take 32 I) true) K true,
     drop 32 I).
Proof.
  intros HK Hi I. unfold CKDpub. rewrite Hi. cbn [fst].
  rewrite CKDpub_buf by exact HK. rewrite hmac_stored. fold I.
  rewrite load_half by apply hmac_size.
  unfold load. rewrite drop_0.
  rewrite (store_all (secp256k1_point_mul _ _ _))
    by (rewrite uninit_size; symmetry; apply point_mul_size).
  rewrite store_all by (rewrite HK; symmetry; apply point_add_size).
  reflexivity.
Qed.

Lemma CKDpub_frame_zeroed (K : BRPubKey) (c : UInt256) (i : Z) :
  frame_zeroed (CKDpub K c i).2.
Proof.
  unfold CKDpub, frame_zeroed. destruct (hardened i); cbn [snd]; [constructor|].
  rewrite !Forall_cons. cbn [snd]. split_and!; [| | |constructor].
  all: apply memset_zeroed; rewrite !length_inserts; apply uninit_size.
Qed.

(** ** BRBIP32MasterPubKey *)

(** The results and the frame of a call with a seed that is not null. *)
Lemma BRBIP32MasterPubKey_seed (seed : list byte) (seedLen : nat) :
  let I := BRHMAC_SHA512 BIP32_SEED_KEY (take seedLen seed) in
  let master := BRKeySetSecret (uninit sizeof_BRKey) (take 32 I) true in
  let account := (CKDpriv (take 32 I) (drop 32 I) BIP32_HARD).1 in
  let r := BRKeyPubKey (BRKeySetSecret (BRKeyHash160 master).2 account.1 true)
             sizeof_BRPubKey in
  BRBIP32MasterPubKey (Some seed) seedLen
  = (match r.1 with
     | None => BR_MASTER_PUBKEY_NONE
     | Some pk => {| fingerPrint := take 4 (BRKeyHash160 master).1;
                     chainCode := account.2;
                     pubKey := pk |}
     end,
     [("I"%string, I); ("secret"%string, account.1);
      ("chain"%string, account.2); ("key"%string, r.2)]).
Proof.
  intros I master account r. unfold BRBIP32MasterPubKey.
  rewrite hmac_stored. rewrite load_half by apply hmac_size.
  unfold load at 1 2. rewrite drop_0.
  change (Z.lor 0 BIP32_HARD) with BIP32_HARD.
  change sizeof_UInt256 with 32%nat.
  subst r account master I.
  destruct (BRKeyHash160 _) as [h key1].
  destruct (CKDpriv _ _ _).1 as [k0 c0]. cbn [fst snd].
  destruct (BRKeyPubKey _ _) as [[pk|] key2] eqn:Hr; cbn [fst snd].
  - rewrite store_all
      by (rewrite uninit_size; symmetry; exact (pubkey_size _ _ _ Hr)).
    unfold load. rewrite drop_0. reflexivity.
  - reflexivity.
Qed.

End Derivation.

(** * The derivation functions against the specification *)

Section Specification.

Context {E : Collaborators} {EOk : CollaboratorsOk E}.

(** C1. For a seed that is not null, [BRBIP32MasterPubKey] computes
    [I = HMAC-SHA512("Bitcoin seed", seed)], takes [IL] as the master secret
    and [IR] as the master chain code, sets the fingerprint to the first four
    bytes of the hash160 of the master key, derives the hardened child 0
    with [CKDpriv], and returns the master fingerprint with the chain code
    and the public key [pk] of that child. *)
Theorem BRBIP32MasterPubKey_derivation (seed : list byte) (seedLen : nat)
    (pk : BRPubKey) :
  let I := BRHMAC_SHA512 BIP32_SEED_KEY (take seedLen seed) in
  let IL := take 32 I in
  let IR := drop 32 I in
  let master := BRKeySetSecret (uninit sizeof_BRKey) IL true in
  let account := (CKDpriv IL IR BIP32_HARD).1 in
  (BRKeyPubKey (BRKeySetSecret (BRKeyHash160 master).2 account.1 true)
     sizeof_BRPubKey).1 = Some pk ->
  Z.testbit BIP32_HARD 31 = true /\
  BIP32_HARD mod 2 ^ 31 = 0 /\
  (BRBIP32MasterPubKey (Some seed) seedLen).1
  = {| fingerPrint := take 4 (BRKeyHash160 master).1;
       chainCode := account.2;
       pubKey := pk |}.
Proof.
  intros I IL IR master account Hpk.
  split; [reflexivity|]. split; [reflexivity|].
  rewrite BRBIP32MasterPubKey_seed. cbn [fst].
  fold I. fold IL IR. fold master. fold account.
  rewrite Hpk. reflexivity.
Qed.

(** C3. [CKDpriv] hashes [0x00 || ser256(k) || ser32(i)] when bit 31 of the
    index is set and [serP(point(k)) || ser32(i)] otherwise, with the parent
    chain code as the HMAC key; the child scalar is [(IL + k) mod n] and the
    child chain code is [IR]. *)
Theorem CKDpriv_derivation (k c : UInt256) (i : Z) :
  is_UInt256 k ->
  let message :=
    if Z.testbit i 31
    then x00 :: ser256 (parse256 k) ++ ser32 i
    else secp256k1_point_mul None k true ++ ser32 i in
  let I := BRHMAC_SHA512 c message in
  let IL := take 32 I in
  let IR := drop 32 I in
  CKDpriv_buf k i = message /\
  (CKDpriv k c i).1 = (ser256 ((parse256 IL + parse256 k) mod secp256k1_n), IR) /\
  parse256 (CKDpriv k c i).1.1 = (parse256 IL + parse256 k) mod secp256k1_n.
Proof.
  intros Hk message I IL IR.
  assert (Hbuf : CKDpriv_buf k i = message).
  { subst message. rewrite <- hardened_testbit.
    destruct (hardened i) eqn:Hi.
    - rewrite ser256_parse256 by exact Hk. apply CKDpriv_buf_hardened; assumption.
    - apply CKDpriv_buf_normal; assumption. }
  assert (HIL : is_UInt256 IL).
  { unfold is_UInt256, IL, I. rewrite length_take, hmac_size. reflexivity. }
  assert (Hres : (CKDpriv k c i).1
                 = (ser256 ((parse256 IL + parse256 k) mod secp256k1_n), IR)).
  { rewrite CKDpriv_result, Hbuf. fold I. fold IL IR.
    rewrite mod_add_spec by assumption. reflexivity. }
  split; [exact Hbuf|]. split; [exact Hres|].
  rewrite Hres. cbn [fst]. apply parse256_ser256.
  pose proof (Z.mod_pos_bound (parse256 IL + parse256 k) secp256k1_n
                ltac:(reflexivity)) as Hm.
  assert (secp256k1_n < 2 ^ 256) by reflexivity. lia.
Qed.

(** C5. For an index with the hardened bit set [CKDpub] returns at once: it
    declares no buffer, derives nothing, and the point of the parent is as
    it was. *)
Theorem CKDpub_hardened_rejected (K : BRPubKey) (c : UInt256) (i : Z) :
  Z.testbit i 31 = true ->
  (CKDpub K c i).1.1 = K /\ (CKDpub K c i).2 = [].
Proof.
  intros Hi. rewrite <- hardened_testbit in Hi.
  rewrite CKDpub_hardened by exact Hi. split; reflexivity.
Qed.

End Specification.

(** C10. For an index with the hardened bit set [CKDpub] leaves the chain
    code of the parent as it was; the call returns before the HMAC is
    computed, so that the outcome is the same whatever the HMAC is. *)
Theorem CKDpub_hardened_chain_code (E : Collaborators) (K : BRPubKey)
    (c : UInt256) (i : Z) :
  Z.testbit i 31 = true ->
  (@CKDpub E K c i).1.2 = c /\
  forall hmac : list byte -> list byte -> list byte,
    @CKDpub {| secp256k1_point_mul := secp256k1_point_mul;
               secp256k1_point_add := secp256k1_point_add;
               secp256k1_mod_add := secp256k1_mod_add;
               BRHMAC_SHA512 := hmac;
               BRKeySetSecret := BRKeySetSecret;
               BRKeyHash160 := BRKeyHash160;
               BRKeyPubKey := BRKeyPubKey;
               sizeof_BRKey := sizeof_BRKey;
               uninit := uninit |} K c i
    = @CKDpub E K c i.
Proof.
  intros Hi. rewrite <- hardened_testbit in Hi.
  split.
  - rewrite CKDpub_hardened by exact Hi. reflexivity.
  - intros hmac. rewrite !CKDpub_hardened by exact Hi. reflexivity.
Qed.

Section Divergences.

Context {E : Collaborators} {EOk : CollaboratorsOk E}.

(** C4 (not met by the code). When [IL] is not below the order of the
    curve, or when the child scalar is 0, [CKDpriv] still returns the
    candidate computed for the index [i] it was given, and so does [CKDpub]
    when [IL] is not below the order: neither function tests the candidate
    and neither moves on to the index [i + 1]. *)
Theorem CKD_invalid_candidate_returned (k c : UInt256) (K : BRPubKey) (i : Z) :
  is_UInt256 k -> is_BRPubKey K -> Z.testbit i 31 = false ->
  let I := BRHMAC_SHA512 c (CKDpriv_buf k i) in
  let J := BRHMAC_SHA512 c (K ++ ser32 i) in
  secp256k1_n <= parse256 (take 32 I)
    \/ (parse256 (take 32 I) + parse256 k) mod secp256k1_n = 0 ->
  secp256k1_n <= parse256 (take 32 J) ->
  (CKDpriv k c i).1
  = (ser256 ((parse256 (take 32 I) + parse256 k) mod secp256k1_n), drop 32 I) /\
  (CKDpub K c i).1
  = (secp256k1_point_add (secp256k1_point_mul None (take 32 J) true) K true,
     drop 32 J).
Proof.
  intros Hk HK Hi I J _ _. rewrite <- hardened_testbit in Hi. split.
  - rewrite CKDpriv_result. fold I. rewrite mod_add_spec; [reflexivity| |exact Hk].
    unfold is_UInt256, I. rewrite length_take, hmac_size. reflexivity.
  - rewrite CKDpub_result by assumption. reflexivity.
Qed.

(** C6 (amended). A null seed gives the all-zero sentinel and an empty
    frame.  A seed that is not null is never rejected for its length: with
    length 0 the master key is derived from the HMAC of the empty message,
    and the sentinel is returned only when the public key of the account
    cannot be computed. *)
Theorem BRBIP32MasterPubKey_null_or_empty (seed : list byte) (seedLen : nat) :
  BRBIP32MasterPubKey None seedLen = (BR_MASTER_PUBKEY_NONE, []) /\
  (BRBIP32MasterPubKey (Some seed) 0).1
  = let I := BRHMAC_SHA512 BIP32_SEED_KEY [] in
    let master := BRKeySetSecret (uninit sizeof_BRKey) (take 32 I) true in
    let account := (CKDpriv (take 32 I) (drop 32 I) BIP32_HARD).1 in
    match (BRKeyPubKey (BRKeySetSecret (BRKeyHash160 master).2 account.1 true)
             sizeof_BRPubKey).1 with
    | None => BR_MASTER_PUBKEY_NONE
    | Some pk => {| fingerPrint := take 4 (BRKeyHash160 master).1;
                    chainCode := account.2;
                    pubKey := pk |}
    end.
Proof.
  split; [reflexivity|].
  rewrite BRBIP32MasterPubKey_seed. cbn [fst]. rewrite take_0. reflexivity.
Qed.

(** C9 (not met by the code). When [BRBIP32MasterPubKey] returns for a seed
    that is not null, its local [I] still holds the HMAC output, that is the
    master secret and the master chain code, and [secret] holds the secret
    of the account; the frame is not zeroed unless the HMAC output is. *)
Theorem BRBIP32MasterPubKey_keeps_secrets (seed : list byte) (seedLen : nat) :
  let I := BRHMAC_SHA512 BIP32_SEED_KEY (take seedLen seed) in
  let fr := (BRBIP32MasterPubKey (Some seed) seedLen).2 in
  fr !! 0%nat = Some ("I"%string, I) /\
  fr !! 1%nat = Some ("secret"%string, (CKDpriv (take 32 I) (drop 32 I) BIP32_HARD).1.1) /\
  (~ zeroed I -> ~ frame_zeroed fr).
Proof.
  intros I fr. subst fr. rewrite BRBIP32MasterPubKey_seed. cbn [snd]. fold I.
  split; [reflexivity|]. split; [reflexivity|].
  intros HI Hfr. apply HI.
  unfold frame_zeroed in Hfr. rewrite Forall_cons in Hfr. exact (proj1 Hfr).
Qed.

End Divergences.

(** C2 (not met by the code). [BRBIP32PubKey] returns its local [pubKey] as
    it was declared, whatever the master public key, the chain and the index
    are, and [BRBIP32PrivKey] leaves the output of the caller as it was:
    the public key returned is not derived from the private key. *)
Theorem BRBIP32PubKey_ignores_arguments (E : Collaborators)
    (mpk mpk' : BRMasterPubKey) (internal internal' index index' : Z)
    (key : UInt256) (seed : option (list byte)) (seedlen : nat) :
  BRBIP32PubKey mpk internal index = uninit sizeof_BRPubKey /\
  BRBIP32PubKey mpk internal index = BRBIP32PubKey mpk' internal' index' /\
  BRBIP32PrivKey key seed seedlen internal index = key.
Proof. repeat split. Qed.

(** C7 (not met by the code). [BRBIP32PrivKey] and [BRBIP32PrivKeyList]
    have empty bodies: the output of the caller is after the call what it
    was before, for every seed, chain and index. *)
Theorem BRBIP32PrivKey_writes_nothing (key : UInt256) (keys : list UInt256)
    (count : nat) (seed : option (list byte)) (seedlen : nat)
    (internal index : Z) (indexes : list Z) :
  BRBIP32PrivKey key seed seedlen internal index = key /\
  BRBIP32PrivKeyList keys count seed seedlen internal indexes = keys.
Proof. split; reflexivity. Qed.

(** C8 (not met by the code). Both serializers return 0 and leave the
    buffer of the caller as it was, for every input and every capacity. *)
Theorem BRBIP32Serialize_returns_zero (s : option (list byte)) (len : nat)
    (seed : option (list byte)) (slen : nat) (mpk : BRMasterPubKey) :
  BRBIP32SerializeMasterPrivKey s len seed slen = (0, s) /\
  BRBIP32SerializeMasterPubKey s len mpk = (0, s).
Proof. split; reflexivity. Qed.

(** * The functions on concrete inputs *)

Module Examples.

Import Inputs.

Lemma BRBIP32MasterPubKey_derivation_witness :
  let I := @BRHMAC_SHA512 ref BIP32_SEED_KEY (take 16 seed16) in
  let account := (@CKDpriv ref (take 32 I) (drop 32 I) BIP32_HARD).1 in
  let master := @BRKeySetSecret ref (@uninit ref (@sizeof_BRKey ref)) (take 32 I) true in
  (@BRBIP32MasterPubKey ref (Some seed16) 16).1
  = {| fingerPrint := take 4 (@BRKeyHash160 ref master).1;
       chainCode := account.2;
       pubKey := Reference.point_mul None account.1 true |}.
Proof.
  apply (BRBIP32MasterPubKey_derivation (E := ref) seed16 16).
  vm_compute. reflexivity.
Defined.

Lemma CKDpriv_derivation_witness :
  is_UInt256 one /\
  @CKDpriv_buf ref one BIP32_HARD = x00 :: one ++ [x80; x00; x00; x00] /\
  @CKDpriv_buf ref one 7 = Reference.point_mul None one true ++ [x00; x00; x00; x07].
Proof.
  split; [reflexivity|]. split.
  - exact (proj1 (CKDpriv_derivation (E := ref) one five BIP32_HARD eq_refl)).
  - exact (proj1 (CKDpriv_derivation (E := ref) one five 7 eq_refl)).
Defined.

Lemma CKDpub_hardened_rejected_witness :
  Z.testbit BIP32_HARD 31 = true /\
  (@CKDpub ref G five BIP32_HARD).1.1 = G /\ (@CKDpub ref G five BIP32_HARD).2 = [].
Proof.
  split; [reflexivity|].
  apply (CKDpub_hardened_rejected (E := ref) G five BIP32_HARD). reflexivity.
Defined.

Lemma CKDpub_hardened_chain_code_witness :
  Z.testbit (BIP32_HARD + 1) 31 = true /\
  (@CKDpub ref G five (BIP32_HARD + 1)).1.2 = five.
Proof.
  split; [reflexivity|].
  apply (CKDpub_hardened_chain_code ref G five (BIP32_HARD + 1)). reflexivity.
Defined.

(** An HMAC output with [IL] above the order: both functions return the
    candidate of the index they were given. *)
Lemma CKD_invalid_candidate_returned_witness :
  let E := Reference.collab Reference.saturated in
  secp256k1_n <= parse256 (take 32 (@BRHMAC_SHA512 E five (@CKDpriv_buf E one 0))) /\
  (@CKDpriv E one five 0).1
  = (ser256 (2 ^ 256 - secp256k1_n), replicate 32 xff) /\
  (@CKDpub E G five 0).1
  = (Reference.point_enc (2 ^ 256 - secp256k1_n), replicate 32 xff).
Proof.
  intros E.
  assert (H1 : secp256k1_n
               <= parse256 (take 32 (@BRHMAC_SHA512 E five (@CKDpriv_buf E one 0))))
    by (apply Z.leb_le; vm_compute; reflexivity).
  assert (H2 : secp256k1_n <= parse256 (take 32 (@BRHMAC_SHA512 E five (G ++ ser32 0))))
    by (apply Z.leb_le; vm_compute; reflexivity).
  split; [exact H1|].
  destruct (CKD_invalid_candidate_returned (E := E) one five G 0
              eq_refl eq_refl eq_refl (or_introl H1) H2) as [Hpriv Hpub].
  split.
  - rewrite Hpriv. vm_compute. reflexivity.
  - rewrite Hpub. vm_compute. reflexivity.
Defined.

(** An HMAC output with [IL = n - 1]: from the scalar 1 [CKDpriv] returns the
    scalar 0, and from the generator [CKDpub] returns the point at
    infinity of the reference group. *)
Example CKDpriv_returns_zero_scalar :
  (@CKDpriv (Reference.collab Reference.opposite) one five 0).1.1 = UINT256_ZERO.
Proof. vm_compute. reflexivity. Qed.

Example CKDpub_returns_infinity :
  (@CKDpub (Reference.collab Reference.opposite) G five 0).1.1
  = Reference.point_enc 0.
Proof. vm_compute. reflexivity. Qed.

(** A seed of length 0 that is not null is not answered by the sentinel. *)
Lemma BRBIP32MasterPubKey_empty_seed_not_none :
  (@BRBIP32MasterPubKey ref (Some []) 0).1 <> BR_MASTER_PUBKEY_NONE.
Proof.
  intros H. apply (f_equal (fun m => head (pubKey m))) in H.
  vm_compute in H. discriminate H.
Qed.

Lemma BRBIP32MasterPubKey_null_or_empty_witness :
  @BRBIP32MasterPubKey ref None 0 = (BR_MASTER_PUBKEY_NONE, []) /\
  head (pubKey (@BRBIP32MasterPubKey ref (Some []) 0).1) = Some x02.
Proof.
  destruct (BRBIP32MasterPubKey_null_or_empty (E := ref) [] 0) as [Hnull Hempty].
  split; [exact Hnull|].
  rewrite Hempty. vm_compute. reflexivity.
Defined.

Lemma BRBIP32MasterPubKey_keeps_secrets_witness :
  ~ frame_zeroed (@BRBIP32MasterPubKey ref (Some seed16) 16).2.
Proof.
  apply (BRBIP32MasterPubKey_keeps_secrets (E := ref) seed16 16).
  intros H. apply Forall_inv in H. vm_compute in H. discriminate H.
Defined.

(** The sibling functions do clear their buffers. *)
Example CKDpriv_frame_cleared : frame_zeroed (@CKDpriv ref one five 0).2.
Proof. apply CKDpriv_frame_zeroed. Qed.

Example CKDpub_frame_cleared : frame_zeroed (@CKDpub ref G five 0).2.
Proof. apply CKDpub_frame_zeroed. Qed.

(** The stubs against the paths of the specification. *)
Example BRBIP32PrivKey_not_the_derived_key :
  @BRBIP32PrivKey UINT256_ZERO (Some seed16) 16 0 0
  <> @spec_DerivePrivateKey ref seed16 0 0.
Proof.
  intros H. apply (f_equal parse256) in H. vm_compute in H. discriminate H.
Qed.

Example BRBIP32PubKey_not_the_derived_key :
  @BRBIP32PubKey ref (@BRBIP32MasterPubKey ref (Some seed16) 16).1 0 0
  <> @secp256k1_point_mul ref None (@spec_DerivePrivateKey ref seed16 0 0) true.
Proof.
  intros H. apply (f_equal head) in H. vm_compute in H. discriminate H.
Qed.

(** In the reference group the two paths of the specification agree. *)
Example spec_paths_agree :
  @spec_DerivePublicKey ref (@BRBIP32MasterPubKey ref (Some seed16) 16).1 0 5
  = @secp256k1_point_mul ref None (@spec_DerivePrivateKey ref seed16 0 5) true.
Proof. vm_compute. reflexivity. Qed.

Example BRBIP32Serialize_probe :
  BRBIP32SerializeMasterPrivKey None 0 (Some seed16) 16 = (0, None).
Proof. reflexivity. Qed.

End Examples.

(** * Further properties of the derivation functions *)

Lemma with_uninit_ok (E : Collaborators) (u : nat -> list byte) :
  CollaboratorsOk E -> (forall n, length (u n) = n) ->
  CollaboratorsOk (Variants.with_uninit E u).
Proof.
  intros EOk Hu. split.
  - exact (point_mul_size (E := E)).
  - exact (point_add_size (E := E)).
  - exact (mod_add_spec (E := E)).
  - exact (hmac_size (E := E)).
  - exact (pubkey_size (E := E)).
  - exact Hu.
Qed.

Section Further.

Context {E : Collaborators} {EOk : CollaboratorsOk E}.

(** X1. For an index without the hardened bit [CKDpub] hashes the parent
    point followed by [ser32(i)] with the parent chain code as the HMAC
    key; the child point is [point(IL) + K] and the child chain code is
    [IR]. *)
Theorem CKDpub_derivation (K : BRPubKey) (c : UInt256) (i : Z) :
  is_BRPubKey K -> Z.testbit i 31 = false ->
  let I := BRHMAC_SHA512 c (K ++ ser32 i) in
  let IL := take 32 I in
  let IR := drop 32 I in
  (CKDpub K c i).1
  = (secp256k1_point_add (secp256k1_point_mul None IL true) K true, IR).
Proof.
  intros HK Hi I IL IR. rewrite <- hardened_testbit in Hi.
  rewrite CKDpub_result by assumption. reflexivity.
Qed.


(** X3. When [BRKeyPubKey] returns 0 for the key of the account,
    [BRBIP32MasterPubKey] returns the all-zero sentinel, not a record with
    the fingerprint and the chain code it has computed. *)
Theorem BRBIP32MasterPubKey_key_failure (seed : list byte) (seedLen : nat) :
  let I := BRHMAC_SHA512 BIP32_SEED_KEY (take seedLen seed) in
  let master := BRKeySetSecret (uninit sizeof_BRKey) (take 32 I) true in
  let account := (CKDpriv (take 32 I) (drop 32 I) BIP32_HARD).1 in
  (BRKeyPubKey (BRKeySetSecret (BRKeyHash160 master).2 account.1 true)
     sizeof_BRPubKey).1 = None ->
  (BRBIP32MasterPubKey (Some seed) seedLen).1 = BR_MASTER_PUBKEY_NONE.
Proof.
  intros I master account Hpk.
  rewrite BRBIP32MasterPubKey_seed. cbn [fst].
  fold I. fold master. fold account. rewrite Hpk. reflexivity.
Qed.

(** X4. The results of [CKDpriv] and [CKDpub] do not depend on what their
    local buffers hold when they are declared: every byte that is hashed
    has been written first. *)
Theorem CKD_results_ignore_uninit (u : nat -> list byte) (k c : UInt256)
    (K : BRPubKey) (i : Z) :
  (forall n, length (u n) = n) -> is_UInt256 k -> is_BRPubKey K ->
  (@CKDpriv (Variants.with_uninit E u) k c i).1 = (@CKDpriv E k c i).1 /\
  (@CKDpub (Variants.with_uninit E u) K c i).1 = (@CKDpub E K c i).1.
Proof.
  intros Hu Hk HK.
  pose proof (with_uninit_ok E u EOk Hu) as UOk.
  assert (Hbuf : @CKDpriv_buf (Variants.with_uninit E u) k i = @CKDpriv_buf E k i).
  { destruct (hardened i) eqn:Hi.
    - rewrite !CKDpriv_buf_hardened by assumption. reflexivity.
    - rewrite !CKDpriv_buf_normal by assumption. reflexivity. }
  split.
  - rewrite !CKDpriv_result, Hbuf. reflexivity.
  - destruct (hardened i) eqn:Hi.
    + rewrite !CKDpub_hardened by assumption. reflexivity.
    + rewrite !CKDpub_result by assumption. reflexivity.
Qed.

(** X5. For an index without the hardened bit, [CKDpub] on the public point
    of a scalar and [CKDpriv] on the scalar give the same child chain code. *)
Theorem CKDpub_CKDpriv_chain_code (k c : UInt256) (i : Z) :
  Z.testbit i 31 = false ->
  (CKDpub (secp256k1_point_mul None k true) c i).1.2 = (CKDpriv k c i).1.2.
Proof.
  intros Hi. rewrite <- hardened_testbit in Hi.
  rewrite CKDpub_result by (try apply point_mul_size; assumption).
  rewrite CKDpriv_result, CKDpriv_buf_normal by assumption. reflexivity.
Qed.

(** X6. For an index without the hardened bit and a 32-byte scalar [k]:
    when the curve module satisfies [point(IL + k) = point(IL) + point(k)]
    for the [IL] of this step, the child point of [CKDpub] on [point(k)]
    is the public point of the child scalar of [CKDpriv] on [k]. *)
Theorem CKDpub_CKDpriv_public_point (k c : UInt256) (i : Z) :
  Z.testbit i 31 = false ->
  let K := secp256k1_point_mul None k true in
  let IL := take 32 (BRHMAC_SHA512 c (K ++ ser32 i)) in
  secp256k1_point_mul None (secp256k1_mod_add IL k) true
  = secp256k1_point_add (secp256k1_point_mul None IL true) K true ->
  (CKDpub K c i).1.1 = secp256k1_point_mul None (CKDpriv k c i).1.1 true.
Proof.
  intros Hi K IL Hlaw. rewrite <- hardened_testbit in Hi.
  rewrite CKDpub_result by (try apply point_mul_size; assumption).
  rewrite CKDpriv_result, CKDpriv_buf_normal by assumption.
  cbn [fst]. fold K. fold IL. symmetry. exact Hlaw.
Qed.

(** X8. The last four bytes of the message that [CKDpriv] hashes are the
    index: read big-endian they give the index back, so that the messages
    of two different indices differ, whatever the scalars are. *)
Theorem CKDpriv_buf_index (k k' : UInt256) (i j : Z) :
  is_UInt256 k -> is_UInt256 k' -> 0 <= i < 2 ^ 32 -> 0 <= j < 2 ^ 32 ->
  be_decode (drop sizeof_BRPubKey (CKDpriv_buf k i)) = i /\
  (CKDpriv_buf k i = CKDpriv_buf k' j -> i = j).
Proof.
  intros Hk Hk' Hi Hj.
  assert (Hidx : forall (s : UInt256) (n : Z), is_UInt256 s -> 0 <= n < 2 ^ 32 ->
            be_decode (drop sizeof_BRPubKey (CKDpriv_buf s n)) = n).
  { intros s n Hs Hn. destruct (hardened n) eqn:Hh.
    - rewrite CKDpriv_buf_hardened by assumption.
      change (x00 :: s ++ ser32 n) with ((x00 :: s) ++ ser32 n).
      rewrite drop_app_length' by (rewrite length_cons, Hs; reflexivity).
      unfold ser32. rewrite be_decode_encode. apply Z.mod_small.
      change (256 ^ Z.of_nat 4) with (2 ^ 32). exact Hn.
    - rewrite CKDpriv_buf_normal by assumption.
      rewrite drop_app_length' by (symmetry; apply point_mul_size).
      unfold ser32. rewrite be_decode_encode. apply Z.mod_small.
      change (256 ^ Z.of_nat 4) with (2 ^ 32). exact Hn. }
  split; [apply Hidx; assumption|].
  intros Heq. rewrite <- (Hidx k i), <- (Hidx k' j), Heq by assumption.
  reflexivity.
Qed.

(** X9. The chain code that [BRBIP32MasterPubKey] returns for a seed that is
    not null is the right half of the HMAC, keyed by the master chain code,
    of [0x00 || IL || 0x80000000], and the public key is the one of the
    scalar [(IL' + IL) mod n], where [IL'] is the left half of that HMAC. *)
Theorem BRBIP32MasterPubKey_account_node (seed : list byte) (seedLen : nat)
    (pk : BRPubKey) :
  let I := BRHMAC_SHA512 BIP32_SEED_KEY (take seedLen seed) in
  let IL := take 32 I in
  let IR := drop 32 I in
  let I' := BRHMAC_SHA512 IR (x00 :: IL ++ [x80; x00; x00; x00]) in
  let secret := ser256 ((parse256 (take 32 I') + parse256 IL) mod secp256k1_n) in
  let master := BRKeySetSecret (uninit sizeof_BRKey) IL true in
  (BRKeyPubKey (BRKeySetSecret (BRKeyHash160 master).2 secret true)
     sizeof_BRPubKey).1 = Some pk ->
  (BRBIP32MasterPubKey (Some seed) seedLen).1
  = {| fingerPrint := take 4 (BRKeyHash160 master).1;
       chainCode := drop 32 I';
       pubKey := pk |}.
Proof.
  intros I IL IR I' secret master Hpk.
  assert (HIL : is_UInt256 IL).
  { unfold is_UInt256, IL, I. rewrite length_take, hmac_size. reflexivity. }
  assert (Hacc : (CKDpriv IL IR BIP32_HARD).1 = (secret, drop 32 I')).
  { rewrite CKDpriv_result.
    rewrite CKDpriv_buf_hardened by (try reflexivity; exact HIL).
    change (ser32 BIP32_HARD) with [x80; x00; x00; x00]. fold I'.
    rewrite mod_add_spec; [reflexivity| |exact HIL].
    unfold is_UInt256, I'. rewrite length_take, hmac_size. reflexivity. }
  rewrite BRBIP32MasterPubKey_seed. cbn [fst].
  fold I. fold IL IR. fold master. rewrite Hacc. cbn [fst snd].
  rewrite Hpk. reflexivity.
Qed.

End Further.

(** X7. For an index with the hardened bit [CKDpriv] performs no point
    multiplication: its results and its frame are the same whatever
    [secp256k1_point_mul] is. *)
Theorem CKDpriv_hardened_no_point_mul (E : Collaborators)
    (pm : option BRPubKey -> UInt256 -> bool -> BRPubKey) (k c : UInt256) (i : Z) :
  Z.testbit i 31 = true ->
  @CKDpriv (Variants.with_point_mul E pm) k c i = @CKDpriv E k c i.
Proof.
  intros Hi. rewrite <- hardened_testbit in Hi.
  unfold CKDpriv, CKDpriv_buf. rewrite Hi. reflexivity.
Qed.

Module FurtherExamples.

Import Inputs.

Lemma CKDpub_derivation_witness :
  is_BRPubKey G /\ Z.testbit 7 31 = false /\
  (@CKDpub ref G five 7).1
  = (Reference.point_add
       (Reference.point_mul None
          (take 32 (@BRHMAC_SHA512 ref five (G ++ [x00; x00; x00; x07]))) true)
       G true,
     drop 32 (@BRHMAC_SHA512 ref five (G ++ [x00; x00; x00; x07]))).
Proof.
  split; [reflexivity|]. split; [reflexivity|].
  exact (CKDpub_derivation (E := ref) G five 7 eq_refl eq_refl).
Defined.


(** With a keyed hash that is all zero the secret of the account is 0 and
    has no public key. *)
Lemma BRBIP32MasterPubKey_key_failure_witness :
  (@BRBIP32MasterPubKey (Reference.collab Variants.silent) (Some seed16) 16).1
  = BR_MASTER_PUBKEY_NONE.
Proof.
  apply (BRBIP32MasterPubKey_key_failure
           (E := Reference.collab Variants.silent) seed16 16).
  vm_compute. reflexivity.
Defined.

Lemma CKD_results_ignore_uninit_witness :
  let E' := Variants.with_uninit ref (fun n => replicate n x00) in
  (@CKDpriv E' one five 7).1 = (@CKDpriv ref one five 7).1 /\
  (@CKDpub E' G five 7).1 = (@CKDpub ref G five 7).1.
Proof.
  apply (CKD_results_ignore_uninit (E := ref) (fun n => replicate n x00)
           one five G 7).
  - intros n. apply length_replicate.
  - reflexivity.
  - reflexivity.
Defined.

Lemma CKDpub_CKDpriv_chain_code_witness :
  Z.testbit 7 31 = false /\
  (@CKDpub ref (@secp256k1_point_mul ref None one true) five 7).1.2
  = (@CKDpriv ref one five 7).1.2.
Proof.
  split; [reflexivity|].
  apply (CKDpub_CKDpriv_chain_code (E := ref) one five 7). reflexivity.
Defined.

Lemma CKDpub_CKDpriv_public_point_witness :
  (@CKDpub ref (@secp256k1_point_mul ref None one true) five 7).1.1
  = @secp256k1_point_mul ref None (@CKDpriv ref one five 7).1.1 true.
Proof.
  apply (CKDpub_CKDpriv_public_point (E := ref) one five 7).
  - reflexivity.
  - vm_compute. reflexivity.
Defined.

Lemma CKDpriv_buf_index_witness :
  be_decode (drop sizeof_BRPubKey (@CKDpriv_buf ref one BIP32_HARD)) = BIP32_HARD /\
  (@CKDpriv_buf ref one BIP32_HARD = @CKDpriv_buf ref five 7 -> BIP32_HARD = 7).
Proof.
  apply (CKDpriv_buf_index (E := ref) one five BIP32_HARD 7);
    first [reflexivity | unfold BIP32_HARD; lia].
Defined.

Lemma BRBIP32MasterPubKey_account_node_witness :
  let I := @BRHMAC_SHA512 ref BIP32_SEED_KEY seed16 in
  let I' := @BRHMAC_SHA512 ref (drop 32 I) (x00 :: take 32 I ++ [x80; x00; x00; x00]) in
  chainCode (@BRBIP32MasterPubKey ref (Some seed16) 16).1 = drop 32 I'.
Proof.
  intros I I'.
  pose proof (BRBIP32MasterPubKey_account_node (E := ref) seed16 16
    (Reference.point_mul None
       (ser256 ((parse256 (take 32 I') + parse256 (take 32 I)) mod secp256k1_n))
       true)) as H.
  cbv zeta in H. rewrite H; [reflexivity|].
  vm_compute. reflexivity.
Defined.

Lemma CKDpriv_hardened_no_point_mul_witness :
  Z.testbit BIP32_HARD 31 = true /\
  @CKDpriv (Variants.with_point_mul ref (fun _ _ _ => [])) one five BIP32_HARD
  = @CKDpriv ref one five BIP32_HARD.
Proof.
  split; [reflexivity|].
  apply (CKDpriv_hardened_no_point_mul ref (fun _ _ _ => []) one five BIP32_HARD).
  reflexivity.
Defined.

End FurtherExamples.
